(** * Galaxon.BigNumbers: the mpmath reference-value invokers

    A shallow embedding of the two scripts
    [BigNumbers.Tests/Python/call_unary_math_function.py] and
    [BigNumbers.Tests/Python/call_binary_math_function.py].

    Both scripts are straight-line Python: they read [sys.argv], call into the
    [mpmath] module, write to standard output and end either by falling off
    the end of [main] (status 0), by [sys.exit(1)], or by an exception nobody
    catches (the interpreter prints the traceback on standard error and ends
    with status 1).  The embedding keeps that shape: a small state-and-error
    monad threads the process state, every call into the collaborator is
    recorded in a trace, and [mpmath] itself, which is not part of the
    repository, is a parameter of the development.  The scripts call
    whatever attribute of the module the first argument names, so a call may
    write to standard output itself before it returns or raises, and
    rendering the result for [print] may raise. *)

From Stdlib Require Import ZArith List String Ascii Bool Lia DecimalString.
From Stdlib Require Import HexString.
Import ListNotations.

Local Open Scope string_scope.
Local Open Scope Z_scope.

(** ** Python values shared by every model of the collaborator *)

(** The exception classes a run of the scripts can end with.  None of them is
    [SystemExit]; the interpreter turns each into exit status 1. *)
Inductive exn : Type :=
| ValueError
| TypeError
| ZeroDivisionError
| OverflowError
| OtherError (cls : string).

(** The line terminator [print] appends. *)
Definition nl : string := String (ascii_of_nat 10) EmptyString.

(** How a Python computation stops: with a value, by [sys.exit(code)], or by
    raising. *)
Inductive result (A : Type) : Type :=
| Ret (a : A)
| Exit (code : Z)
| Raise (e : exn).

Arguments Ret {A} a.
Arguments Exit {A} code.
Arguments Raise {A} e.

(** The status the operating system sees. *)
Definition exit_status {A : Type} (r : result A) : Z :=
  match r with
  | Ret _ => 0
  | Exit code => code
  | Raise _ => 1
  end.

(** [needle in haystack] on Python strings. *)
Fixpoint contains (needle haystack : string) : bool :=
  prefix needle haystack ||
  match haystack with
  | EmptyString => false
  | String _ rest => contains needle rest
  end.

(** ** The collaborator and the process state *)

Section Process.

(** [value]: the numbers [mpmath.mpf] builds.  [object]: whatever an
    attribute of the module, or the result of calling one, may be.
    [context]: the state of [mpmath.mp], which holds the working
    precision. *)
Variables value object context : Type.

(** What the scripts use of the interpreter and of [mpmath].  A sum
    [exn + A] is a call that may raise. *)
Record Collaborator : Type := {
  (** [int(text)] *)
  py_int : string -> exn + Z;
  (** the state of [mpmath.mp] right after [import mpmath] *)
  default_context : context;
  (** [mpmath.mpf(text)], under the context in force at the call *)
  mpf : context -> string -> exn + value;
  (** [mpmath.mp.dps = n] *)
  set_dps : Z -> context -> exn + context;
  (** [getattr(mpmath, name)]; [None] is [AttributeError] *)
  getattr : string -> option object;
  (** [f(args...)], under the context in force at the call: the text the
      callee itself writes to standard output, and how the call ends *)
  call : context -> object -> list value -> string * (exn + object);
  (** [str(obj)], as [print] calls it, under the context in force *)
  str : context -> object -> exn + string
}.

(** One entry per call into the collaborator, in program order, with the
    precision context the call ran under. *)
Inductive event : Type :=
| EvMpf (c : context) (text : string)
| EvInt (text : string)
| EvSetDps (n : Z)
| EvGetattr (name : string)
| EvCall (c : context) (f : object) (args : list value)
| EvStr (c : context) (obj : object).

Record state : Type := mkState {
  ctx : context;
  stdout : string;
  trace : list event
}.

Definition M (A : Type) : Type := state -> result A * state.

Definition ret {A : Type} (a : A) : M A := fun st => (Ret a, st).

Definition bind {A B : Type} (m : M A) (k : A -> M B) : M B :=
  fun st =>
    match m st with
    | (Ret a, st') => k a st'
    | (Exit code, st') => (Exit code, st')
    | (Raise e, st') => (Raise e, st')
    end.

Definition record (e : event) : M unit :=
  fun st => (Ret tt, mkState (ctx st) (stdout st) (trace st ++ [e])).

Definition current_context : M context := fun st => (Ret (ctx st), st).

Definition install_context (c : context) : M unit :=
  fun st => (Ret tt, mkState c (stdout st) (trace st)).

Definition raise_or_return {A : Type} (r : exn + A) : M A :=
  fun st =>
    match r with
    | inl e => (Raise e, st)
    | inr a => (Ret a, st)
    end.

(** [print(text)] *)
Definition print (text : string) : M unit :=
  fun st => (Ret tt, mkState (ctx st) (stdout st ++ text ++ nl) (trace st)).

(** What a callee writes to standard output on its own. *)
Definition written (text : string) : M unit :=
  fun st => (Ret tt, mkState (ctx st) (stdout st ++ text) (trace st)).

(** [sys.exit(code)] *)
Definition sys_exit {A : Type} (code : Z) : M A := fun st => (Exit code, st).

(** [if cond: body] *)
Definition when (cond : bool) (body : M unit) : M unit :=
  if cond then body else ret tt.

(** [len(sys.argv)] and [sys.argv[i]]; the scripts index only below the
    length they have just checked. *)
Definition len (argv : list string) : Z := Z.of_nat (List.length argv).
Definition item (argv : list string) (i : nat) : string := nth i argv "".

End Process.

Arguments Collaborator : clear implicits.
Arguments py_int {value object context} _ _.
Arguments default_context {value object context} _.
Arguments mpf {value object context} _ _ _.
Arguments set_dps {value object context} _ _ _.
Arguments getattr {value object context} _ _.
Arguments call {value object context} _ _ _ _.
Arguments str {value object context} _ _ _.
Arguments EvMpf {value object context} c text.
Arguments EvInt {value object context} text.
Arguments EvSetDps {value object context} n.
Arguments EvGetattr {value object context} name.
Arguments EvCall {value object context} c f args.
Arguments EvStr {value object context} c obj.
Arguments mkState {value object context} ctx stdout trace.
Arguments ctx {value object context} _.
Arguments stdout {value object context} _.
Arguments trace {value object context} _.
Arguments ret {value object context A} a _.
Arguments bind {value object context A B} m k _.
Arguments record {value object context} e _.
Arguments current_context {value object context} _.
Arguments install_context {value object context} c _.
Arguments raise_or_return {value object context A} r _.
Arguments print {value object context} text _.
Arguments written {value object context} text _.
Arguments sys_exit {value object context A} code _.
Arguments when {value object context} cond body _.

Declare Scope py_scope.
Delimit Scope py_scope with py.
Notation "x <- m ;; k" := (bind m (fun x => k))
  (at level 61, m at next level, right associativity) : py_scope.
Notation "m ;; k" := (bind m (fun _ => k))
  (at level 61, right associativity) : py_scope.

(** ** The statements both scripts share *)

Section Statements.

Context {value object context : Type}.
Variable E : Collaborator value object context.

(** [mpmath.mpf(text)] *)
Definition mpmath_mpf (text : string) : M value object context value :=
  (c <- current_context ;;
   record (EvMpf c text) ;;
   raise_or_return (mpf E c text))%py.

(** [int(text)] *)
Definition int (text : string) : M value object context Z :=
  (record (EvInt text) ;;
   raise_or_return (py_int E text))%py.

(** [mpmath.mp.dps = n] *)
Definition assign_dps (n : Z) : M value object context unit :=
  (c <- current_context ;;
   record (EvSetDps n) ;;
   c' <- raise_or_return (set_dps E n c) ;;
   install_context c')%py.

(** The text of the [except AttributeError] branch. *)
Definition not_found_message (function_name : string) : string :=
  "Function " ++ function_name ++ " not found in mpmath.".

(** [[
    try:
        func = getattr(mpmath, function_name)
    except AttributeError:
        print(f"Function {function_name} not found in mpmath.")
        sys.exit(1)
    ]] *)
Definition resolve (function_name : string) : M value object context object :=
  (record (EvGetattr function_name) ;;
   match getattr E function_name with
   | Some func => ret func
   | None => print (not_found_message function_name) ;; sys_exit 1
   end)%py.

(** [func(args...)] *)
Definition apply (func : object) (args : list value) : M value object context object :=
  (c <- current_context ;;
   record (EvCall c func args) ;;
   written (fst (call E c func args)) ;;
   raise_or_return (snd (call E c func args)))%py.

(** [print(result)] *)
Definition print_object (obj : object) : M value object context unit :=
  (c <- current_context ;;
   record (EvStr c obj) ;;
   text <- raise_or_return (str E c obj) ;;
   print text)%py.

(** The process before [main] runs: [import mpmath] has set up the default
    context and nothing has been written. *)
Definition initial_state : state value object context :=
  mkState (default_context E) "" [].

End Statements.

(** ** call_unary_math_function.py *)

Module call_unary_math_function.
Section Script.

Context {value object context : Type}.
Variable E : Collaborator value object context.

Definition usage : string :=
  "Usage: python3 call_unary_math_function.py <function_name> <x> <precision>".

Definition main (argv : list string) : M value object context unit :=
  (when (negb (len argv =? 4))
     (print usage ;; sys_exit 1) ;;
   let function_name := item argv 1 in
   x <- mpmath_mpf E (item argv 2) ;;
   precision <- int E (item argv 3) ;;
   assign_dps E precision ;;
   func <- resolve E function_name ;;
   result <- apply E func [x] ;;
   print_object E result)%py.

Definition run (argv : list string) : result unit * state value object context :=
  main argv (initial_state E).

End Script.
End call_unary_math_function.

(** ** call_binary_math_function.py *)

Module call_binary_math_function.
Section Script.

Context {value object context : Type}.
Variable E : Collaborator value object context.

Definition usage : string :=
  "Usage: python3 call_binary_math_function.py <function_name> <x> <y> <precision>".

Definition main (argv : list string) : M value object context unit :=
  (when (negb (len argv =? 5))
     (print usage ;; sys_exit 1) ;;
   let function_name := item argv 1 in
   x <- mpmath_mpf E (item argv 2) ;;
   y <- mpmath_mpf E (item argv 3) ;;
   precision <- int E (item argv 4) ;;
   assign_dps E precision ;;
   func <- resolve E function_name ;;
   result <- apply E func [x; y] ;;
   print_object E result)%py.

Definition run (argv : list string) : result unit * state value object context :=
  main argv (initial_state E).

End Script.
End call_binary_math_function.

Module Unary := call_unary_math_function.
Module Binary := call_binary_math_function.

(** ** An executable excerpt of the collaborator

    Enough of [mpmath] to run the scripts on sample command lines: plain
    signed decimal integer literals as operands and as precision; the exact
    functions [fneg], [fadd], [fsub] and [fmul], which write nothing; the
    module attribute [mp] (the context object, which is not callable); and
    [workdps], which returns a [PrecisionManager] object that has no text
    form of its own, so that [print] shows it with the address the
    interpreter allocated it at.  Numbers are kept exactly and printed the
    way [mpmath] prints a short integer-valued [mpf] (["-2.0"]), which is
    what the library does while operands and results fit the working
    precision, as they do in every sample run; from [2^63] digits on, an
    [mpf] cannot be rendered and [str] raises [OverflowError].  Names and
    texts outside the excerpt are treated as absent and as malformed; the
    general theorems never use the excerpt, only the sample runs do. *)

Module MpmathExcerpt.

Inductive object : Type :=
| Number (v : Z)
| PrecisionManager (address : Z)
| fneg
| fadd
| fsub
| fmul
| workdps
| mp.

Definition decimal (text : string) : option Z :=
  option_map Z.of_int (NilZero.int_of_string text).

Definition parse (text : string) : exn + Z :=
  match decimal text with
  | Some n => inr n
  | None => inl ValueError
  end.

Definition lookup (name : string) : option object :=
  if (name =? "fneg")%string then Some fneg
  else if (name =? "fadd")%string then Some fadd
  else if (name =? "fsub")%string then Some fsub
  else if (name =? "fmul")%string then Some fmul
  else if (name =? "workdps")%string then Some workdps
  else if (name =? "mp")%string then Some mp
  else None.

(** [heap]: where this run of the interpreter puts the object a call
    creates. *)
Definition invoke (heap : Z) (f : object) (args : list Z) : exn + object :=
  match f, args with
  | fneg, [x] => inr (Number (- x))
  | fadd, [x; y] => inr (Number (x + y))
  | fsub, [x; y] => inr (Number (x - y))
  | fmul, [x; y] => inr (Number (x * y))
  | workdps, [_] => inr (PrecisionManager heap)
  | workdps, [_; _] => inr (PrecisionManager heap)
  | _, _ => inl TypeError
  end.

(** The largest index of a 64-bit interpreter ([sys.maxsize]). *)
Definition maxsize : Z := 2 ^ 63 - 1.

Definition render (dps : Z) (obj : object) : exn + string :=
  match obj with
  | Number v =>
      if dps >? maxsize then inl OverflowError
      else inr (NilZero.string_of_int (Z.to_int v) ++ ".0")
  | PrecisionManager address =>
      inr ("<mpmath.ctx_mp.PrecisionManager object at "
           ++ HexString.of_Z address ++ ">")
  | _ => inr "<attribute of mpmath>"
  end.

(** The context is the [dps] setting: 15 after import, and the setter keeps
    at least one digit. *)
Definition lib_at (heap : Z) : Collaborator Z object Z := {|
  py_int := parse;
  default_context := 15;
  mpf := fun _ text => parse text;
  set_dps := fun n _ => inr (Z.max 1 n);
  getattr := lookup;
  call := fun _ f args => ("", invoke heap f args);
  str := render
|}.

Definition lib : Collaborator Z object Z := lib_at 140234567890123.

End MpmathExcerpt.

(** ** What a run leaves behind *)

Section Observations.

Context {value object context : Type}.

Definition outcome (r : result unit * state value object context) : result unit :=
  fst r.

Definition status (r : result unit * state value object context) : Z :=
  exit_status (fst r).

Definition output (r : result unit * state value object context) : string :=
  stdout (snd r).

Definition events (r : result unit * state value object context)
  : list (event value object context) :=
  trace (snd r).

(** The run ended in the [except AttributeError] branch for [name]. *)
Definition unknown_function_path (name : string)
    (r : result unit * state value object context) : Prop :=
  outcome r = Exit 1 /\ output r = not_found_message name ++ nl.

(** The order the specification asks for: whenever an operand is parsed, the
    precision has been assigned earlier in the run. *)
Definition precision_set_before_parsing
    (t : list (event value object context)) : Prop :=
  forall pre c text post,
    t = (pre ++ EvMpf c text :: post)%list -> exists n, In (EvSetDps n) pre.

(** The order the code has, for a script whose precision argument is
    [precision]: an operand is parsed under the library's default context,
    before any precision is assigned; the one precision assigned is the
    integer [int] read from [precision]; the lookup, the call and the
    rendering of the result come after that assignment, and the call and the
    rendering run under the context it produced. *)
Definition parsed_then_configured (E : Collaborator value object context)
    (precision : string) (t : list (event value object context)) : Prop :=
  (forall pre c text post,
     t = (pre ++ EvMpf c text :: post)%list ->
     c = default_context E /\ forall n, ~ In (EvSetDps n) pre) /\
  (forall pre n post,
     t = (pre ++ EvSetDps n :: post)%list ->
     py_int E precision = inr n /\ forall m, ~ In (EvSetDps m) pre) /\
  (forall pre name post,
     t = (pre ++ EvGetattr name :: post)%list ->
     exists n, In (EvSetDps n) pre /\ py_int E precision = inr n) /\
  (forall pre c f args post,
     t = (pre ++ EvCall c f args :: post)%list ->
     exists n, In (EvSetDps n) pre /\ py_int E precision = inr n /\
               set_dps E n (default_context E) = inr c) /\
  (forall pre c obj post,
     t = (pre ++ EvStr c obj :: post)%list ->
     exists n, In (EvSetDps n) pre /\ py_int E precision = inr n /\
               set_dps E n (default_context E) = inr c).

(** Two invocations of the unary script on [argv] in which the interpreter
    and the library answer alike the calls the script makes on that
    argument vector: the parse of its operand under the default context,
    [int] of its precision, the assignment of that precision, the lookup of
    its name, the call on the parsed operand and the rendering of what the
    call returned.  Nothing is asked of any other answer. *)
Definition unary_answers_agree (E1 E2 : Collaborator value object context)
    (argv : list string) : Prop :=
  default_context E1 = default_context E2 /\
  mpf E1 (default_context E1) (item argv 2)
  = mpf E2 (default_context E1) (item argv 2) /\
  py_int E1 (item argv 3) = py_int E2 (item argv 3) /\
  (forall n,
     py_int E1 (item argv 3) = inr n ->
     set_dps E1 n (default_context E1) = set_dps E2 n (default_context E1)) /\
  getattr E1 (item argv 1) = getattr E2 (item argv 1) /\
  (forall x n c f,
     mpf E1 (default_context E1) (item argv 2) = inr x ->
     py_int E1 (item argv 3) = inr n ->
     set_dps E1 n (default_context E1) = inr c ->
     getattr E1 (item argv 1) = Some f ->
     call E1 c f [x] = call E2 c f [x] /\
     forall out obj,
       call E1 c f [x] = (out, inr obj) -> str E1 c obj = str E2 c obj).

Definition binary_answers_agree (E1 E2 : Collaborator value object context)
    (argv : list string) : Prop :=
  default_context E1 = default_context E2 /\
  mpf E1 (default_context E1) (item argv 2)
  = mpf E2 (default_context E1) (item argv 2) /\
  mpf E1 (default_context E1) (item argv 3)
  = mpf E2 (default_context E1) (item argv 3) /\
  py_int E1 (item argv 4) = py_int E2 (item argv 4) /\
  (forall n,
     py_int E1 (item argv 4) = inr n ->
     set_dps E1 n (default_context E1) = set_dps E2 n (default_context E1)) /\
  getattr E1 (item argv 1) = getattr E2 (item argv 1) /\
  (forall x y n c f,
     mpf E1 (default_context E1) (item argv 2) = inr x ->
     mpf E1 (default_context E1) (item argv 3) = inr y ->
     py_int E1 (item argv 4) = inr n ->
     set_dps E1 n (default_context E1) = inr c ->
     getattr E1 (item argv 1) = Some f ->
     call E1 c f [x; y] = call E2 c f [x; y] /\
     forall out obj,
       call E1 c f [x; y] = (out, inr obj) -> str E1 c obj = str E2 c obj).

(** The run got past its inputs: right argument count, operand [x] parsed,
    precision text read as [n], and the assignment of [n] left the library
    in context [c]. *)
Definition unary_inputs_accepted (E : Collaborator value object context)
    (argv : list string) (x : value) (n : Z) (c : context) : Prop :=
  len argv = 4 /\
  mpf E (default_context E) (item argv 2) = inr x /\
  py_int E (item argv 3) = inr n /\
  set_dps E n (default_context E) = inr c.

Definition binary_inputs_accepted (E : Collaborator value object context)
    (argv : list string) (x y : value) (n : Z) (c : context) : Prop :=
  len argv = 5 /\
  mpf E (default_context E) (item argv 2) = inr x /\
  mpf E (default_context E) (item argv 3) = inr y /\
  py_int E (item argv 4) = inr n /\
  set_dps E n (default_context E) = inr c.

(** The calls a run has made when it comes back from [getattr]. *)
Definition unary_prelude (E : Collaborator value object context)
    (argv : list string) (n : Z) : list (event value object context) :=
  [EvMpf (default_context E) (item argv 2); EvInt (item argv 3);
   EvSetDps n; EvGetattr (item argv 1)].

Definition binary_prelude (E : Collaborator value object context)
    (argv : list string) (n : Z) : list (event value object context) :=
  [EvMpf (default_context E) (item argv 2);
   EvMpf (default_context E) (item argv 3); EvInt (item argv 4);
   EvSetDps n; EvGetattr (item argv 1)].

(** What is left of a run once its inputs are accepted: lookup, call,
    print. *)
Definition finish (E : Collaborator value object context) (name : string)
    (c : context) (args : list value)
    (prelude : list (event value object context))
  : result unit * state value object context :=
  match getattr E name with
  | None => (Exit 1, mkState c (not_found_message name ++ nl) prelude)
  | Some f =>
      match call E c f args with
      | (out, inl e) =>
          (Raise e, mkState c out (prelude ++ [EvCall c f args]))
      | (out, inr r) =>
          match str E c r with
          | inl e =>
              (Raise e,
               mkState c out (prelude ++ [EvCall c f args; EvStr c r]))
          | inr text =>
              (Ret tt,
               mkState c (out ++ text ++ nl)
                 (prelude ++ [EvCall c f args; EvStr c r]))
          end
      end
  end.

(** The six kinds of call a script makes, in the order its text makes
    them. *)
Inductive step : Type :=
| Parse
| ReadPrecision
| SetPrecision
| Lookup
| Apply
| Render.

Definition kind (e : event value object context) : step :=
  match e with
  | EvMpf _ _ => Parse
  | EvInt _ => ReadPrecision
  | EvSetDps _ => SetPrecision
  | EvGetattr _ => Lookup
  | EvCall _ _ _ => Apply
  | EvStr _ _ => Render
  end.

(** Lines 10-23 of the unary script and lines 10-24 of the binary one, as
    kinds of call. *)
Definition unary_steps : list step :=
  [Parse; ReadPrecision; SetPrecision; Lookup; Apply; Render].

Definition binary_steps : list step :=
  [Parse; Parse; ReadPrecision; SetPrecision; Lookup; Apply; Render].

(** The four ways a run can end. *)
Definition usage_exit (usage : string)
    (r : result unit * state value object context) : Prop :=
  outcome r = Exit 1 /\ output r = usage ++ nl /\ events r = [].

Definition not_found_exit (E : Collaborator value object context)
    (name : string) (r : result unit * state value object context) : Prop :=
  getattr E name = None /\ unknown_function_path name r.

(** A normal return: after whatever the called attribute wrote itself, the
    script has printed the text of the result and a line terminator. *)
Definition result_printed (E : Collaborator value object context)
    (r : result unit * state value object context) : Prop :=
  exists c f args out obj text,
    In (EvCall c f args) (events r) /\
    call E c f args = (out, inr obj) /\
    str E c obj = inr text /\
    outcome r = Ret tt /\ output r = out ++ text ++ nl.

(** An uncaught exception: the script has printed nothing; standard output
    is empty, or holds what the called attribute wrote itself. *)
Definition crashed (E : Collaborator value object context)
    (r : result unit * state value object context) : Prop :=
  exists e,
    outcome r = Raise e /\
    (output r = "" \/
     exists c f args,
       In (EvCall c f args) (events r) /\
       output r = fst (call E c f args)).

End Observations.

(** ** Sample command lines *)

Definition unary_line (name x precision : string) : list string :=
  ["call_unary_math_function.py"; name; x; precision].

Definition binary_line (name x y precision : string) : list string :=
  ["call_binary_math_function.py"; name; x; y; precision].

(** ** Proof support *)

Lemma len_mismatch (argv : list string) (n : Z) :
  len argv <> n -> negb (len argv =? n) = true.
Proof.
  intros H. apply Z.eqb_neq in H. now rewrite H.
Qed.

Lemma len_match (argv : list string) (n : Z) :
  len argv = n -> negb (len argv =? n) = false.
Proof.
  intros H. apply Z.eqb_eq in H. now rewrite H.
Qed.

Lemma prefix_app (a b : string) : prefix a (a ++ b) = true.
Proof.
  induction a as [|ch a IH]; simpl.
  - now destruct b.
  - destruct (ascii_dec ch ch) as [_|ne]; [exact IH | now contradiction ne].
Qed.

Lemma append_assoc (a b c : string) : ((a ++ b) ++ c = a ++ b ++ c)%string.
Proof.
  induction a as [|ch a IH]; simpl; [reflexivity | now rewrite IH].
Qed.

(** Unfold a run down to the collaborator's answers. *)
Ltac expose :=
  unfold status, output, events, outcome, unknown_function_path,
    Unary.run, Unary.main, Binary.run, Binary.main, mpmath_mpf, int,
    assign_dps, resolve, apply, print_object, initial_state, when, bind, ret,
    record, current_context, install_context, raise_or_return, print,
    written, sys_exit in *;
  simpl in *.

(** Split on the next answer the run depends on. *)
Ltac answer :=
  match goal with
  | |- context [fst (call ?E ?c ?f ?a)] =>
      destruct (call E c f a) eqn:?; simpl in *
  | |- context [match ?r with _ => _ end] =>
      lazymatch r with
      | context [match _ with _ => _ end] => fail
      | _ => destruct r eqn:?; simpl in *
      end
  end.

Ltac answers := repeat answer.

(** Split on the answers a hypothesis about a run depends on. *)
Ltac answers_in H :=
  repeat match type of H with
         | context [fst (call ?E ?c ?f ?a)] =>
             destruct (call E c f a) eqn:?; simpl in *
         | context [match ?r with _ => _ end] =>
             lazymatch r with
             | context [match _ with _ => _ end] => fail
             | _ => destruct r eqn:?; simpl in *
             end
         end.

(** Pick the one event of a finished trace a hypothesis [In _ _] speaks of. *)
Ltac pick H :=
  simpl in H;
  repeat match type of H with
         | _ \/ _ => destruct H as [H|H]
         end;
  try discriminate H; try contradiction H.

(** Take a finished trace apart around one of its events. *)
Ltac locate H :=
  repeat (match type of H with
          | _ = (?pre ++ _ :: _)%list => destruct pre; simpl in H
          end;
          first [ discriminate H | injection H as ? H; subst ]);
  repeat match goal with
         | X : ?a = ?b |- _ =>
             first [ discriminate X | injection X as ? ?; subst ]
         end.

(** ** Argument count (C6) *)

Section Theorems.

Context {value object context : Type}.
Variable E : Collaborator value object context.

(** C6.  An argument vector of the wrong length (not 4 for the unary script,
    not 5 for the binary one, program name included) makes the script print
    its usage line, which names the script, and exit with status 1; the
    collaborator is never called, so no operand is parsed, no precision is
    set and nothing is resolved or applied. *)
Theorem wrong_argument_count_prints_usage_and_does_nothing (argv : list string) :
  (len argv <> 4 ->
     Unary.run E argv
     = (Exit 1, mkState (default_context E) (Unary.usage ++ nl) [])) /\
  (len argv <> 5 ->
     Binary.run E argv
     = (Exit 1, mkState (default_context E) (Binary.usage ++ nl) [])) /\
  contains "call_unary_math_function.py" Unary.usage = true /\
  contains "call_binary_math_function.py" Binary.usage = true.
Proof.
  repeat split; try reflexivity; intros H; expose;
    rewrite (len_mismatch _ _ H); reflexivity.
Qed.

(** ** Operand parsing (C7) *)

(** C7.  With the right argument count, an operand text the library rejects
    ends the run at that very call: the exception leaves [main] uncaught
    (status 1), nothing has been printed, and the trace stops at the failing
    [mpf] call, before the precision is read or set and before the function
    is looked up or applied. *)
Theorem malformed_operand_is_fatal_before_resolution (argv : list string) (e : exn) :
  let c0 := default_context E in
  (len argv = 4 ->
   mpf E c0 (item argv 2) = inl e ->
   Unary.run E argv = (Raise e, mkState c0 "" [EvMpf c0 (item argv 2)])) /\
  (len argv = 5 ->
   mpf E c0 (item argv 2) = inl e ->
   Binary.run E argv = (Raise e, mkState c0 "" [EvMpf c0 (item argv 2)])) /\
  (len argv = 5 ->
   (exists x, mpf E c0 (item argv 2) = inr x) ->
   mpf E c0 (item argv 3) = inl e ->
   Binary.run E argv
   = (Raise e, mkState c0 "" [EvMpf c0 (item argv 2); EvMpf c0 (item argv 3)])) /\
  exit_status (@Raise unit e) = 1.
Proof.
  repeat split.
  - intros L H. expose. rewrite (len_match _ _ L); simpl. now rewrite H.
  - intros L H. expose. rewrite (len_match _ _ L); simpl. now rewrite H.
  - intros L [x Hx] H. expose. rewrite (len_match _ _ L); simpl.
    rewrite Hx; simpl. now rewrite H.
Qed.

(** ** Runs whose inputs are accepted *)

Lemma unary_run_after_inputs (argv : list string) (x : value) (n : Z) (c : context) :
  unary_inputs_accepted E argv x n c ->
  Unary.run E argv = finish E (item argv 1) c [x] (unary_prelude E argv n).
Proof.
  intros (L & X & N & C). unfold finish, unary_prelude. expose.
  rewrite (len_match _ _ L); simpl. rewrite X; simpl. rewrite N; simpl.
  rewrite C; simpl. answers; reflexivity.
Qed.

Lemma binary_run_after_inputs
    (argv : list string) (x y : value) (n : Z) (c : context) :
  binary_inputs_accepted E argv x y n c ->
  Binary.run E argv = finish E (item argv 1) c [x; y] (binary_prelude E argv n).
Proof.
  intros (L & X & Y & N & C). unfold finish, binary_prelude. expose.
  rewrite (len_match _ _ L); simpl. rewrite X; simpl. rewrite Y; simpl.
  rewrite N; simpl. rewrite C; simpl. answers; reflexivity.
Qed.

(** The lookup decides between the [except] branch and the call. *)
Lemma finish_unknown_iff (name : string) (c : context) (args : list value)
    (prelude : list (event value object context)) :
  unknown_function_path name (finish E name c args prelude)
  <-> getattr E name = None.
Proof.
  unfold unknown_function_path, outcome, output, finish.
  destruct (getattr E name) as [f|].
  - split; [|discriminate].
    intros [H _]. destruct (call E c f args) as [out [e|r]];
      [|destruct (str E c r)]; discriminate H.
  - split; [reflexivity|]. intros _. split; reflexivity.
Qed.

Lemma finish_calls (name : string) (c : context) (args : list value)
    (prelude : list (event value object context)) (f : object) :
  getattr E name = Some f ->
  In (EvCall c f args) (events (finish E name c args prelude)).
Proof.
  intros G. unfold events, finish. rewrite G.
  destruct (call E c f args) as [out [e|r]]; [|destruct (str E c r)];
    simpl; apply in_or_app; right; simpl; auto.
Qed.

(** Every run with four arguments starts by parsing the operand, under the
    default context, whatever the collaborator. *)
Lemma unary_run_starts_by_parsing (argv : list string) :
  len argv = 4 ->
  exists post,
    events (Unary.run E argv) = EvMpf (default_context E) (item argv 2) :: post.
Proof.
  intros L. expose. rewrite (len_match _ _ L); simpl.
  answers; eexists; reflexivity.
Qed.

(** ** Reporting (C8) *)

(** C8, as the code has it.  Whenever a run reaches the call of the resolved
    attribute and that call returns a result, what follows depends on
    whether the result can be rendered.  If [str] gives its text, standard
    output holds what the callee wrote itself (nothing, for a mathematical
    function), then exactly that text and one line terminator, and the run
    ends normally with status 0.  If [str] raises, the exception leaves
    [main] uncaught: the script prints nothing and the status is 1. *)
Theorem result_text_is_printed_bare_when_it_renders
    (argv : list string) (c : context) (f : object) (args : list value)
    (out : string) (r : object) :
  (In (EvCall c f args) (events (Unary.run E argv)) ->
   call E c f args = (out, inr r) ->
   (forall text,
      str E c r = inr text ->
      output (Unary.run E argv) = out ++ text ++ nl /\
      outcome (Unary.run E argv) = Ret tt /\
      status (Unary.run E argv) = 0) /\
   (forall e,
      str E c r = inl e ->
      output (Unary.run E argv) = out /\
      outcome (Unary.run E argv) = Raise e /\
      status (Unary.run E argv) = 1)) /\
  (In (EvCall c f args) (events (Binary.run E argv)) ->
   call E c f args = (out, inr r) ->
   (forall text,
      str E c r = inr text ->
      output (Binary.run E argv) = out ++ text ++ nl /\
      outcome (Binary.run E argv) = Ret tt /\
      status (Binary.run E argv) = 0) /\
   (forall e,
      str E c r = inl e ->
      output (Binary.run E argv) = out /\
      outcome (Binary.run E argv) = Raise e /\
      status (Binary.run E argv) = 1)).
Proof.
  split; intros H R; expose.
  - destruct (len argv =? 4); simpl in *; [|contradiction].
    answers; pick H; injection H as ? ? ?; subst;
      (split; intros ? S; repeat split; simpl; congruence).
  - destruct (len argv =? 5); simpl in *; [|contradiction].
    answers; pick H; injection H as ? ? ?; subst;
      (split; intros ? S; repeat split; simpl; congruence).
Qed.

(** ** Function resolution (C2, C5, C10) *)

(** C2, as the code has it.  The lookup is by name in the library's one
    namespace and takes no account of arity: once the inputs are accepted,
    the run ends in the not-found branch exactly when the name is no
    attribute of the module, and an attribute that is found is called with
    the script's own operand count (one operand in the unary script, two in
    the binary one), whatever arity it was written for. *)
Theorem resolution_is_by_name_whatever_the_arity
    (argv : list string) (x y : value) (n : Z) (c : context) :
  (unary_inputs_accepted E argv x n c ->
   (unknown_function_path (item argv 1) (Unary.run E argv)
    <-> getattr E (item argv 1) = None) /\
   (forall f, getattr E (item argv 1) = Some f ->
              In (EvCall c f [x]) (events (Unary.run E argv)))) /\
  (binary_inputs_accepted E argv x y n c ->
   (unknown_function_path (item argv 1) (Binary.run E argv)
    <-> getattr E (item argv 1) = None) /\
   (forall f, getattr E (item argv 1) = Some f ->
              In (EvCall c f [x; y]) (events (Binary.run E argv)))).
Proof.
  split; intros A.
  - rewrite (unary_run_after_inputs _ _ _ _ A).
    split; [apply finish_unknown_iff | intros f; apply finish_calls].
  - rewrite (binary_run_after_inputs _ _ _ _ _ A).
    split; [apply finish_unknown_iff | intros f; apply finish_calls].
Qed.

(** C5, as the code has it.  When the requested name is no attribute of the
    module and the inputs are accepted (right argument count, operands and
    precision parsed, precision assigned), the script prints
    [Function {name} not found in mpmath.] and ends by [sys.exit(1)]: an
    exit, not an exception as a parse failure or a failing call would be,
    and the function is never called. *)
Theorem absent_name_is_reported_once_inputs_are_accepted
    (argv : list string) (x y : value) (n : Z) (c : context) :
  getattr E (item argv 1) = None ->
  (unary_inputs_accepted E argv x n c ->
   Unary.run E argv
   = (Exit 1,
      mkState c (not_found_message (item argv 1) ++ nl)
        (unary_prelude E argv n))) /\
  (binary_inputs_accepted E argv x y n c ->
   Binary.run E argv
   = (Exit 1,
      mkState c (not_found_message (item argv 1) ++ nl)
        (binary_prelude E argv n))) /\
  prefix ("Function " ++ item argv 1 ++ " not found")
    (not_found_message (item argv 1)) = true.
Proof.
  intros G. repeat split.
  - intros A. rewrite (unary_run_after_inputs _ _ _ _ A).
    unfold finish. now rewrite G.
  - intros A. rewrite (binary_run_after_inputs _ _ _ _ _ A).
    unfold finish. now rewrite G.
  - unfold not_found_message.
    change " not found in mpmath." with (" not found" ++ " in mpmath.").
    rewrite <- !append_assoc. apply prefix_app.
Qed.

(** C10.  Any attribute of the module resolves, whatever it is: the run
    never takes the not-found branch for it.  If the attribute cannot be
    applied to the operands, the exception comes from the call itself and
    leaves [main] uncaught, with nothing printed by the script (standard
    output holds only what the callee wrote before it raised, nothing for
    an attribute that cannot be called at all), after the operands were
    parsed and the precision was assigned. *)
Theorem any_attribute_resolves_and_fails_only_when_called
    (argv : list string) (f : object) :
  getattr E (item argv 1) = Some f ->
  ~ unknown_function_path (item argv 1) (Unary.run E argv) /\
  ~ unknown_function_path (item argv 1) (Binary.run E argv) /\
  (forall x n c out e,
     unary_inputs_accepted E argv x n c ->
     call E c f [x] = (out, inl e) ->
     Unary.run E argv
     = (Raise e, mkState c out (unary_prelude E argv n ++ [EvCall c f [x]]))) /\
  (forall x y n c out e,
     binary_inputs_accepted E argv x y n c ->
     call E c f [x; y] = (out, inl e) ->
     Binary.run E argv
     = (Raise e,
        mkState c out (binary_prelude E argv n ++ [EvCall c f [x; y]]))).
Proof.
  intros G. repeat split.
  - intros [H1 H2]. expose. rewrite G in *.
    destruct (len argv =? 4); simpl in *; [|discriminate H2].
    revert H1 H2. answers; discriminate.
  - intros [H1 H2]. expose. rewrite G in *.
    destruct (len argv =? 5); simpl in *; [|discriminate H2].
    revert H1 H2. answers; discriminate.
  - intros x n c out e A C. rewrite (unary_run_after_inputs _ _ _ _ A).
    unfold finish. now rewrite G, C.
  - intros x y n c out e A C. rewrite (binary_run_after_inputs _ _ _ _ _ A).
    unfold finish. now rewrite G, C.
Qed.

(** ** Evaluation (C3) *)

(** C3, as the code has it.  On [divide 1 0 20] the binary script does not
    crash, but it does not reach the evaluation either: for a library that
    accepts the two operands and the precision and has no attribute named
    [divide], the run parses both operands, assigns the precision, fails
    the lookup, prints the not-found line and ends by [sys.exit(1)].
    Nothing is called and no value is printed. *)
Theorem divide_sample_is_looked_up_and_not_found
    (x y : value) (n : Z) (c : context) :
  let argv := binary_line "divide" "1" "0" "20" in
  binary_inputs_accepted E argv x y n c ->
  getattr E "divide" = None ->
  Binary.run E argv
  = (Exit 1,
     mkState c ("Function divide not found in mpmath." ++ nl)
       [EvMpf (default_context E) "1"; EvMpf (default_context E) "0";
        EvInt "20"; EvSetDps n; EvGetattr "divide"]) /\
  status (Binary.run E argv) = 1.
Proof.
  intros argv A G. rewrite (binary_run_after_inputs _ _ _ _ _ A).
  unfold finish, status. change (item argv 1) with "divide".
  rewrite G. split; reflexivity.
Qed.

(** ** Precision (C1, C4) *)

(** C4, as the code has it.  With the right argument count, a precision text
    that [int] rejects is fatal: the run ends with status 1, has printed
    nothing, and has neither assigned a precision nor called the function.
    A precision text that [int] reads is assigned as it is, positive or not;
    the script compares it with nothing. *)
Theorem precision_must_be_integer_text_and_its_sign_is_not_checked
    (argv : list string) :
  (len argv = 4 ->
   forall e, py_int E (item argv 3) = inl e ->
   status (Unary.run E argv) = 1 /\
   output (Unary.run E argv) = "" /\
   (forall n, ~ In (EvSetDps n) (events (Unary.run E argv))) /\
   (forall c f args, ~ In (EvCall c f args) (events (Unary.run E argv)))) /\
  (len argv = 5 ->
   forall e, py_int E (item argv 4) = inl e ->
   status (Binary.run E argv) = 1 /\
   output (Binary.run E argv) = "" /\
   (forall n, ~ In (EvSetDps n) (events (Binary.run E argv))) /\
   (forall c f args, ~ In (EvCall c f args) (events (Binary.run E argv)))) /\
  (len argv = 4 ->
   forall x n,
   mpf E (default_context E) (item argv 2) = inr x ->
   py_int E (item argv 3) = inr n ->
   In (EvSetDps n) (events (Unary.run E argv))) /\
  (len argv = 5 ->
   forall x y n,
   mpf E (default_context E) (item argv 2) = inr x ->
   mpf E (default_context E) (item argv 3) = inr y ->
   py_int E (item argv 4) = inr n ->
   In (EvSetDps n) (events (Binary.run E argv))).
Proof.
  repeat split; intros; expose;
    match goal with L : len argv = _ |- _ => rewrite (len_match _ _ L) in * end;
    simpl in *;
    repeat match goal with
           | H : _ = inl _ |- _ => rewrite H in *; simpl in *
           | H : _ = inr _ |- _ => rewrite H in *; simpl in *
           end;
    answers; simpl; try reflexivity; try tauto;
    try (intros J; pick J).
Qed.

(** Close what is left of a statement about one located event. *)
Ltac settle :=
  repeat match goal with
         | |- _ /\ _ => split
         | |- forall _, _ => intro
         | |- ~ _ => intro
         | J : In _ _ |- False => solve [pick J]
         end;
  try reflexivity; try assumption;
  try solve [eexists; repeat split; [simpl; eauto 10 | eauto ..]].

(** C1, as the code has it.  In every run of either script each operand is
    parsed first, under the library's default context and before any
    precision has been assigned; the one precision assigned is the integer
    read from the precision argument, it is assigned after the operands are
    parsed, and it is the lookup, the call and the rendering of the result
    that happen under it. *)
Theorem operands_are_parsed_before_the_precision_is_set (argv : list string) :
  parsed_then_configured E (item argv 3) (events (Unary.run E argv)) /\
  parsed_then_configured E (item argv 4) (events (Binary.run E argv)).
Proof.
  split; unfold parsed_then_configured; expose.
  - destruct (len argv =? 4); simpl; answers; simpl; repeat split; intros;
      match goal with H : _ = (_ ++ _)%list |- _ => locate H end; settle.
  - destruct (len argv =? 5); simpl; answers; simpl; repeat split; intros;
      match goal with H : _ = (_ ++ _)%list |- _ => locate H end; settle.
Qed.

End Theorems.

(** ** Determinism (C9) *)

Section Determinism.

Context {value object context : Type}.
Variables E1 E2 : Collaborator value object context.

Lemma unary_runs_agree (argv : list string) :
  unary_answers_agree E1 E2 argv -> Unary.run E1 argv = Unary.run E2 argv.
Proof.
  intros (Hc & Hm & Hi & Hd & Hg & Hcall). expose. rewrite <- Hc.
  destruct (len argv =? 4); simpl; [|reflexivity].
  rewrite <- Hm.
  destruct (mpf E1 _ _) as [e|x] eqn:X; simpl; [reflexivity|].
  rewrite <- Hi.
  destruct (py_int E1 _) as [e|n] eqn:N; simpl; [reflexivity|].
  rewrite <- (Hd n eq_refl).
  destruct (set_dps E1 n _) as [e|c] eqn:C; simpl; [reflexivity|].
  rewrite <- Hg.
  destruct (getattr E1 _) as [f|] eqn:G; simpl; [|reflexivity].
  destruct (Hcall x n c f eq_refl eq_refl C eq_refl) as [Hk Hs].
  rewrite <- Hk.
  destruct (call E1 c f [x]) as [out [e|obj]] eqn:K; simpl; [reflexivity|].
  rewrite <- (Hs out obj eq_refl).
  destruct (str E1 c obj); reflexivity.
Qed.

Lemma binary_runs_agree (argv : list string) :
  binary_answers_agree E1 E2 argv -> Binary.run E1 argv = Binary.run E2 argv.
Proof.
  intros (Hc & Hx & Hy & Hi & Hd & Hg & Hcall). expose. rewrite <- Hc.
  destruct (len argv =? 5); simpl; [|reflexivity].
  rewrite <- Hx.
  destruct (mpf E1 _ (item argv 2)) as [e|x] eqn:X; simpl; [reflexivity|].
  rewrite <- Hy.
  destruct (mpf E1 _ (item argv 3)) as [e|y] eqn:Y; simpl; [reflexivity|].
  rewrite <- Hi.
  destruct (py_int E1 _) as [e|n] eqn:N; simpl; [reflexivity|].
  rewrite <- (Hd n eq_refl).
  destruct (set_dps E1 n _) as [e|c] eqn:C; simpl; [reflexivity|].
  rewrite <- Hg.
  destruct (getattr E1 _) as [f|] eqn:G; simpl; [|reflexivity].
  destruct (Hcall x y n c f eq_refl eq_refl eq_refl C eq_refl) as [Hk Hs].
  rewrite <- Hk.
  destruct (call E1 c f [x; y]) as [out [e|obj]] eqn:K; simpl; [reflexivity|].
  rewrite <- (Hs out obj eq_refl).
  destruct (str E1 c obj); reflexivity.
Qed.

(** C9, as the code has it.  The output and the status of a run depend on
    the argument vector and on nothing but the answers to the calls the
    script makes on it: the parse of these operands under the default
    context, [int] of this precision, that precision's assignment, the
    lookup of this name, the call on the parsed operands and the rendering
    of what it returned.  Two invocations of the same script on the same
    argument vector in which those answers are alike write the same bytes to
    standard output and end with the same status, whatever else differs
    between the two processes. *)
Theorem same_arguments_and_same_answers_give_same_output
    (argv : list string) :
  (unary_answers_agree E1 E2 argv ->
   output (Unary.run E1 argv) = output (Unary.run E2 argv) /\
   status (Unary.run E1 argv) = status (Unary.run E2 argv)) /\
  (binary_answers_agree E1 E2 argv ->
   output (Binary.run E1 argv) = output (Binary.run E2 argv) /\
   status (Binary.run E1 argv) = status (Binary.run E2 argv)).
Proof.
  split; intros A.
  - now rewrite (unary_runs_agree argv A).
  - now rewrite (binary_runs_agree argv A).
Qed.

End Determinism.

(** ** Further properties of the two scripts *)

Section Pipeline.

Context {value object context : Type}.
Variable E : Collaborator value object context.

(** X1.  The calls a run makes are an initial segment of the script's fixed
    sequence: parse the operand (both operands in the binary script), read
    the precision, assign it, look the name up, call, render.  No step runs
    twice, none runs out of order, and a run that stops has skipped nothing
    before the point where it stopped. *)
Theorem calls_are_an_initial_segment_of_the_pipeline (argv : list string) :
  map kind (events (Unary.run E argv))
  = firstn (List.length (events (Unary.run E argv))) unary_steps /\
  map kind (events (Binary.run E argv))
  = firstn (List.length (events (Binary.run E argv))) binary_steps.
Proof.
  split; expose.
  - destruct (len argv =? 4); simpl; answers; reflexivity.
  - destruct (len argv =? 5); simpl; answers; reflexivity.
Qed.

(** Name the way a finished run ended. *)
Ltac classify :=
  first [ solve [left; now repeat split]
        | solve [right; left; now repeat split]
        | solve [right; right; left; do 6 eexists;
                 repeat split; try eassumption; simpl; eauto 10]
        | solve [right; right; right; eexists; split;
                 [reflexivity | left; reflexivity]]
        | solve [right; right; right; eexists; split;
                 [reflexivity
                 | right; do 3 eexists; split;
                   [ simpl; eauto 10
                   | match goal with
                     | K : call _ _ _ _ = _ |- _ => now rewrite K
                     end ]]] ].

(** X2.  Every run of either script ends in one of four ways: the usage line
    and [sys.exit(1)] with no call made; the not-found line and
    [sys.exit(1)] for a name the library does not have; a normal return
    after printing the text of the result and a line terminator behind
    whatever the called attribute wrote itself; or an uncaught exception,
    with nothing printed by the script, so that standard output is empty or
    holds only what the called attribute wrote itself. *)
Theorem every_run_ends_in_one_of_four_ways (argv : list string) :
  (usage_exit Unary.usage (Unary.run E argv) \/
   not_found_exit E (item argv 1) (Unary.run E argv) \/
   result_printed E (Unary.run E argv) \/
   crashed E (Unary.run E argv)) /\
  (usage_exit Binary.usage (Binary.run E argv) \/
   not_found_exit E (item argv 1) (Binary.run E argv) \/
   result_printed E (Binary.run E argv) \/
   crashed E (Binary.run E argv)).
Proof.
  unfold usage_exit, not_found_exit, result_printed, crashed.
  split; expose.
  - destruct (len argv =? 4); simpl; answers;
      unfold output, outcome, events; simpl; classify.
  - destruct (len argv =? 5); simpl; answers;
      unfold output, outcome, events; simpl; classify.
Qed.

(** X3.  The exit status of either script is 0 or 1, and it is 0 exactly
    when the run got as far as rendering a result and the rendering gave a
    text. *)
Theorem status_is_zero_exactly_when_a_result_was_rendered (argv : list string) :
  ((status (Unary.run E argv) = 0 \/ status (Unary.run E argv) = 1) /\
   (status (Unary.run E argv) = 0
    <-> exists c obj text,
          In (EvStr c obj) (events (Unary.run E argv)) /\
          str E c obj = inr text)) /\
  ((status (Binary.run E argv) = 0 \/ status (Binary.run E argv) = 1) /\
   (status (Binary.run E argv) = 0
    <-> exists c obj text,
          In (EvStr c obj) (events (Binary.run E argv)) /\
          str E c obj = inr text)).
Proof.
  split; expose.
  - destruct (len argv =? 4); simpl; answers; simpl; (split; [auto|]); split.
    all: try (intros S0; discriminate S0).
    all: try (intros _; do 3 eexists;
              split; [simpl; eauto 10 | eassumption]).
    all: try (intros (? & ? & ? & J & S); pick J; injection J as ? ?; subst;
              congruence).
  - destruct (len argv =? 5); simpl; answers; simpl; (split; [auto|]); split.
    all: try (intros S0; discriminate S0).
    all: try (intros _; do 3 eexists;
              split; [simpl; eauto 10 | eassumption]).
    all: try (intros (? & ? & ? & J & S); pick J; injection J as ? ?; subst;
              congruence).
Qed.

(** X4.  Whatever is called is the attribute bound to the first argument,
    taken verbatim, and it receives the parsed operands in command-line
    order: [x] in the unary script, [x; y] (never [y; x]) in the binary
    one. *)
Theorem call_receives_the_operands_in_command_line_order
    (argv : list string) (c : context) (f : object) (args : list value) :
  (In (EvCall c f args) (events (Unary.run E argv)) ->
   getattr E (item argv 1) = Some f /\
   exists x,
     mpf E (default_context E) (item argv 2) = inr x /\ args = [x]) /\
  (In (EvCall c f args) (events (Binary.run E argv)) ->
   getattr E (item argv 1) = Some f /\
   exists x y,
     mpf E (default_context E) (item argv 2) = inr x /\
     mpf E (default_context E) (item argv 3) = inr y /\
     args = [x; y]).
Proof.
  split; intros H; expose.
  - destruct (len argv =? 4); simpl in *; [|contradiction].
    answers_in H; pick H; injection H as ? ? ?; subst; eauto 10.
  - destruct (len argv =? 5); simpl in *; [|contradiction].
    answers_in H; pick H; injection H as ? ? ?; subst; eauto 10.
Qed.

(** X5.  The only precision a script ever assigns is the integer [int] read
    from its last argument, and the call and the rendering run under the
    very context the library returned for that assignment, made on the
    default context. *)
Theorem evaluation_runs_under_the_precision_of_the_last_argument
    (argv : list string) :
  (forall n, In (EvSetDps n) (events (Unary.run E argv)) ->
             py_int E (item argv 3) = inr n) /\
  (forall c f args,
     In (EvCall c f args) (events (Unary.run E argv)) ->
     exists n, py_int E (item argv 3) = inr n /\
               set_dps E n (default_context E) = inr c) /\
  (forall c obj,
     In (EvStr c obj) (events (Unary.run E argv)) ->
     exists n, py_int E (item argv 3) = inr n /\
               set_dps E n (default_context E) = inr c) /\
  (forall n, In (EvSetDps n) (events (Binary.run E argv)) ->
             py_int E (item argv 4) = inr n) /\
  (forall c f args,
     In (EvCall c f args) (events (Binary.run E argv)) ->
     exists n, py_int E (item argv 4) = inr n /\
               set_dps E n (default_context E) = inr c) /\
  (forall c obj,
     In (EvStr c obj) (events (Binary.run E argv)) ->
     exists n, py_int E (item argv 4) = inr n /\
               set_dps E n (default_context E) = inr c).
Proof.
  repeat split; intros; expose.
  all: try (destruct (len argv =? 4); simpl in *; [|contradiction]).
  all: try (destruct (len argv =? 5); simpl in *; [|contradiction]).
  all: match goal with
       | J : In _ _ |- _ =>
           answers_in J; pick J; injection J as ?; subst
       end;
       eauto 10.
Qed.


(** X7.  A run that ends with status 0 has printed, behind whatever the
    called attribute wrote itself, exactly the text of [f(x)] (of [f(x, y)]
    in the binary script) and a line terminator, where [f] is the library
    attribute named by the first argument, the operands are the following
    arguments parsed under the default context, and the call and the
    rendering ran under the context obtained by assigning the integer read
    from the last argument. *)
Theorem status_zero_means_the_named_function_was_applied_and_printed
    (argv : list string) :
  (status (Unary.run E argv) = 0 ->
   exists x n c f out obj text,
     unary_inputs_accepted E argv x n c /\
     getattr E (item argv 1) = Some f /\
     call E c f [x] = (out, inr obj) /\
     str E c obj = inr text /\
     output (Unary.run E argv) = out ++ text ++ nl) /\
  (status (Binary.run E argv) = 0 ->
   exists x y n c f out obj text,
     binary_inputs_accepted E argv x y n c /\
     getattr E (item argv 1) = Some f /\
     call E c f [x; y] = (out, inr obj) /\
     str E c obj = inr text /\
     output (Binary.run E argv) = out ++ text ++ nl).
Proof.
  unfold unary_inputs_accepted, binary_inputs_accepted.
  split; intros H; expose.
  - destruct (len argv =? 4) eqn:L; simpl in *; [|discriminate H].
    apply Z.eqb_eq in L. revert H.
    answers; intros H; try discriminate H.
    do 7 eexists. repeat split; eauto.
  - destruct (len argv =? 5) eqn:L; simpl in *; [|discriminate H].
    apply Z.eqb_eq in L. revert H.
    answers; intros H; try discriminate H.
    do 8 eexists. repeat split; eauto.
Qed.

End Pipeline.

(** ** Sample runs on the excerpt *)

Section Samples.

Import MpmathExcerpt.

(** C1 fails on [fneg 2 50]: the operand is parsed first, under the default
    15 digits, and the precision 50 is assigned only afterwards.  The first
    event of the run is the parse for every collaborator, so the order the
    claim asks for holds for none. *)
Lemma sample_run_parses_operand_before_precision_is_set :
  events (Unary.run lib (unary_line "fneg" "2" "50"))
  = [EvMpf 15 "2"; EvInt "50"; EvSetDps 50; EvGetattr "fneg";
     EvCall 50 fneg [2]; EvStr 50 (Number (-2))] /\
  (forall (value object context : Type) (E : Collaborator value object context),
     ~ precision_set_before_parsing
         (events (Unary.run E (unary_line "fneg" "2" "50")))).
Proof.
  split; [reflexivity|].
  intros value object context E H.
  destruct (unary_run_starts_by_parsing E (unary_line "fneg" "2" "50") eq_refl)
    as [post P].
  destruct (H [] _ _ post P) as [n []].
Qed.

(** C2 fails on [fadd], a two-operand function of the library (the binary
    script prints ["5.0"] for [fadd 2 3 10]): the unary script finds it,
    calls it with one operand and ends on the uncaught [TypeError], with
    nothing printed; it does not take the not-found branch.  Likewise for
    the one-operand [fneg] in the binary script. *)
Lemma other_arity_name_is_found_called_and_crashes :
  Binary.run lib (binary_line "fadd" "2" "3" "10")
  = (Ret tt,
     mkState 10 ("5.0" ++ nl)
       [EvMpf 15 "2"; EvMpf 15 "3"; EvInt "10"; EvSetDps 10; EvGetattr "fadd";
        EvCall 10 fadd [2; 3]; EvStr 10 (Number 5)]) /\
  Unary.run lib (unary_line "fadd" "2" "10")
  = (Raise TypeError,
     mkState 10 ""
       [EvMpf 15 "2"; EvInt "10"; EvSetDps 10; EvGetattr "fadd";
        EvCall 10 fadd [2]]) /\
  Binary.run lib (binary_line "fneg" "2" "3" "10")
  = (Raise TypeError,
     mkState 10 ""
       [EvMpf 15 "2"; EvMpf 15 "3"; EvInt "10"; EvSetDps 10; EvGetattr "fneg";
        EvCall 10 fneg [2; 3]]).
Proof.
  repeat split.
Qed.

(** C3 fails on [divide 1 0 20]: the library has no attribute of that name
    (its division is [fdiv]), so the run prints the not-found line and exits
    with status 1 without evaluating anything. *)
Lemma divide_sample_ends_in_the_not_found_branch :
  getattr lib "divide" = None /\
  Binary.run lib (binary_line "divide" "1" "0" "20")
  = (Exit 1,
     mkState 20 ("Function divide not found in mpmath." ++ nl)
       [EvMpf 15 "1"; EvMpf 15 "0"; EvInt "20"; EvSetDps 20;
        EvGetattr "divide"]).
Proof.
  split; reflexivity.
Qed.

(** C4 fails on the precisions ["0"] and ["-3"]: both are read as integers,
    assigned to [mp.dps] as they are, and the run goes on to evaluate,
    print the result and end with status 0. *)
Lemma non_positive_precision_is_assigned_and_the_run_succeeds :
  py_int lib "0" = inr 0 /\
  Unary.run lib (unary_line "fneg" "2" "0")
  = (Ret tt,
     mkState 1 ("-2.0" ++ nl)
       [EvMpf 15 "2"; EvInt "0"; EvSetDps 0; EvGetattr "fneg";
        EvCall 1 fneg [2]; EvStr 1 (Number (-2))]) /\
  py_int lib "-3" = inr (-3) /\
  Binary.run lib (binary_line "fmul" "2" "4" "-3")
  = (Ret tt,
     mkState 1 ("8.0" ++ nl)
       [EvMpf 15 "2"; EvMpf 15 "4"; EvInt "-3"; EvSetDps (-3);
        EvGetattr "fmul"; EvCall 1 fmul [2; 4]; EvStr 1 (Number 8)]).
Proof.
  repeat split.
Qed.

(** C5 fails on [bogus_fn abc 10]: the name is absent from the library, yet
    the run ends on the uncaught [ValueError] of the operand parse, before
    the lookup, and prints nothing. *)
Lemma absent_name_with_malformed_operand_prints_nothing :
  getattr lib "bogus_fn" = None /\
  Unary.run lib (unary_line "bogus_fn" "abc" "10")
  = (Raise ValueError, mkState 15 "" [EvMpf 15 "abc"]) /\
  Binary.run lib (binary_line "bogus_fn" "1" "abc" "10")
  = (Raise ValueError, mkState 15 "" [EvMpf 15 "1"; EvMpf 15 "abc"]).
Proof.
  repeat split.
Qed.

(** C8 fails on [fneg 2 99999999999999999999]: the call returns the numeric
    result [-2], but at that precision the result cannot be rendered;
    [print(result)] raises [OverflowError], nothing is written to standard
    output and the status is 1. *)
Lemma numeric_result_that_cannot_be_rendered_is_not_printed :
  call lib 99999999999999999999 fneg [2] = ("", inr (Number (-2))) /\
  Unary.run lib (unary_line "fneg" "2" "99999999999999999999")
  = (Raise OverflowError,
     mkState 99999999999999999999 ""
       [EvMpf 15 "2"; EvInt "99999999999999999999";
        EvSetDps 99999999999999999999; EvGetattr "fneg";
        EvCall 99999999999999999999 fneg [2];
        EvStr 99999999999999999999 (Number (-2))]) /\
  status (Unary.run lib (unary_line "fneg" "2" "99999999999999999999")) = 1.
Proof.
  repeat split.
Qed.

(** C9 fails on [workdps 20 10]: the call returns an object that [print]
    shows with the address it was allocated at, so two invocations that
    allocate it at different addresses write different bytes, both with
    status 0. *)
Lemma object_printed_with_its_address_differs_between_runs :
  output (Unary.run (lib_at 140234567890123) (unary_line "workdps" "20" "10"))
  = "<mpmath.ctx_mp.PrecisionManager object at 0x7f8ae79ab4cb>" ++ nl /\
  output (Unary.run (lib_at 140109876543210) (unary_line "workdps" "20" "10"))
  = "<mpmath.ctx_mp.PrecisionManager object at 0x7f6ddf6bbeea>" ++ nl /\
  status (Unary.run (lib_at 140234567890123) (unary_line "workdps" "20" "10"))
  = 0 /\
  status (Unary.run (lib_at 140109876543210) (unary_line "workdps" "20" "10"))
  = 0 /\
  output (Unary.run (lib_at 140234567890123) (unary_line "workdps" "20" "10"))
  <> output (Unary.run (lib_at 140109876543210)
               (unary_line "workdps" "20" "10")).
Proof.
  repeat split. vm_compute. discriminate.
Qed.

(** *** The theorems at sample command lines *)

Lemma missing_precision_argument_sample :
  Unary.run lib ["call_unary_math_function.py"; "sqrt"; "2"]
  = (Exit 1, mkState 15 (Unary.usage ++ nl) []) /\
  Binary.run lib ["call_binary_math_function.py"; "power"; "2"; "10"]
  = (Exit 1, mkState 15 (Binary.usage ++ nl) []).
Proof.
  split.
  - apply (proj1 (wrong_argument_count_prints_usage_and_does_nothing lib _)).
    vm_compute. discriminate.
  - apply (proj1 (proj2
      (wrong_argument_count_prints_usage_and_does_nothing lib _))).
    vm_compute. discriminate.
Defined.

Lemma malformed_operand_sample :
  Unary.run lib (unary_line "fneg" "abc" "10")
  = (Raise ValueError, mkState 15 "" [EvMpf 15 "abc"]) /\
  Binary.run lib (binary_line "fadd" "1" "1.5.2" "10")
  = (Raise ValueError, mkState 15 "" [EvMpf 15 "1"; EvMpf 15 "1.5.2"]).
Proof.
  split.
  - apply (proj1 (malformed_operand_is_fatal_before_resolution lib
                    (unary_line "fneg" "abc" "10") ValueError));
      reflexivity.
  - apply (proj1 (proj2 (proj2
             (malformed_operand_is_fatal_before_resolution lib
                (binary_line "fadd" "1" "1.5.2" "10") ValueError))));
      [reflexivity | exists 1; reflexivity | reflexivity].
Defined.

(** The unary script on a result that renders, the binary script on one that
    renders, and the binary script on one that does not. *)
Lemma printed_result_sample :
  (output (Unary.run lib (unary_line "fneg" "2" "50")) = "-2.0" ++ nl /\
   outcome (Unary.run lib (unary_line "fneg" "2" "50")) = Ret tt /\
   status (Unary.run lib (unary_line "fneg" "2" "50")) = 0) /\
  (output (Binary.run lib (binary_line "fmul" "6" "7" "20")) = "42.0" ++ nl /\
   outcome (Binary.run lib (binary_line "fmul" "6" "7" "20")) = Ret tt /\
   status (Binary.run lib (binary_line "fmul" "6" "7" "20")) = 0) /\
  (output (Binary.run lib (binary_line "fmul" "2" "4" "99999999999999999999"))
   = "" /\
   outcome (Binary.run lib (binary_line "fmul" "2" "4" "99999999999999999999"))
   = Raise OverflowError /\
   status (Binary.run lib (binary_line "fmul" "2" "4" "99999999999999999999"))
   = 1).
Proof.
  split; [|split].
  - exact (proj1 (proj1 (result_text_is_printed_bare_when_it_renders lib
                           (unary_line "fneg" "2" "50") 50 fneg [2] ""
                           (Number (-2)))
                    ltac:(vm_compute; do 4 right; left; reflexivity)
                    eq_refl)
             "-2.0" eq_refl).
  - exact (proj1 (proj2 (result_text_is_printed_bare_when_it_renders lib
                           (binary_line "fmul" "6" "7" "20") 20 fmul [6; 7] ""
                           (Number 42))
                    ltac:(vm_compute; do 5 right; left; reflexivity)
                    eq_refl)
             "42.0" eq_refl).
  - exact (proj2 (proj2 (result_text_is_printed_bare_when_it_renders lib
                           (binary_line "fmul" "2" "4" "99999999999999999999")
                           99999999999999999999 fmul [2; 4] "" (Number 8))
                    ltac:(vm_compute; do 5 right; left; reflexivity)
                    eq_refl)
             OverflowError eq_refl).
Defined.

(** A name of the other arity that the library has: found and called; and a
    name it does not have: the not-found branch. *)
Lemma other_arity_name_resolves_sample :
  (~ unknown_function_path "fadd" (Unary.run lib (unary_line "fadd" "2" "10")) /\
   In (EvCall 10 fadd [2]) (events (Unary.run lib (unary_line "fadd" "2" "10")))) /\
  (~ unknown_function_path "fneg"
       (Binary.run lib (binary_line "fneg" "2" "3" "10")) /\
   In (EvCall 10 fneg [2; 3])
      (events (Binary.run lib (binary_line "fneg" "2" "3" "10")))) /\
  unknown_function_path "bogus_fn"
    (Unary.run lib (unary_line "bogus_fn" "1" "10")).
Proof.
  split; [|split].
  - destruct (proj1 (resolution_is_by_name_whatever_the_arity lib
                       (unary_line "fadd" "2" "10") 2 0 10 10)
                ltac:(repeat split)) as [I C].
    split; [intros H; apply I in H; discriminate H | apply C; reflexivity].
  - destruct (proj2 (resolution_is_by_name_whatever_the_arity lib
                       (binary_line "fneg" "2" "3" "10") 2 3 10 10)
                ltac:(repeat split)) as [I C].
    split; [intros H; apply I in H; discriminate H | apply C; reflexivity].
  - destruct (proj1 (resolution_is_by_name_whatever_the_arity lib
                       (unary_line "bogus_fn" "1" "10") 1 0 10 10)
                ltac:(repeat split)) as [I _].
    apply I. reflexivity.
Defined.

Lemma absent_name_sample :
  Unary.run lib (unary_line "bogus_fn" "1" "10")
  = (Exit 1,
     mkState 10 ("Function bogus_fn not found in mpmath." ++ nl)
       [EvMpf 15 "1"; EvInt "10"; EvSetDps 10; EvGetattr "bogus_fn"]).
Proof.
  apply (proj1 (absent_name_is_reported_once_inputs_are_accepted lib
                  (unary_line "bogus_fn" "1" "10") 1 0 10 10 eq_refl)).
  repeat split.
Defined.

Lemma context_object_resolves_and_fails_when_called :
  ~ unknown_function_path "mp" (Unary.run lib (unary_line "mp" "2" "10")) /\
  Unary.run lib (unary_line "mp" "2" "10")
  = (Raise TypeError,
     mkState 10 ""
       [EvMpf 15 "2"; EvInt "10"; EvSetDps 10; EvGetattr "mp";
        EvCall 10 mp [2]]).
Proof.
  pose proof (any_attribute_resolves_and_fails_only_when_called lib
                (unary_line "mp" "2" "10") mp eq_refl) as (U & _ & C & _).
  split; [exact U|].
  apply (C 2 10 10 "" TypeError); repeat split.
Defined.

Lemma divide_sample_is_not_found :
  binary_inputs_accepted lib (binary_line "divide" "1" "0" "20") 1 0 20 20 /\
  getattr lib "divide" = None /\
  Binary.run lib (binary_line "divide" "1" "0" "20")
  = (Exit 1,
     mkState 20 ("Function divide not found in mpmath." ++ nl)
       [EvMpf 15 "1"; EvMpf 15 "0"; EvInt "20"; EvSetDps 20;
        EvGetattr "divide"]) /\
  status (Binary.run lib (binary_line "divide" "1" "0" "20")) = 1.
Proof.
  split; [repeat split|]. split; [reflexivity|].
  apply (divide_sample_is_looked_up_and_not_found lib 1 0 20 20);
    [repeat split | reflexivity].
Defined.

Lemma precision_text_samples :
  status (Unary.run lib (unary_line "fneg" "2" "ten")) = 1 /\
  output (Unary.run lib (unary_line "fneg" "2" "ten")) = "" /\
  In (EvSetDps 50) (events (Unary.run lib (unary_line "fneg" "2" "50"))).
Proof.
  pose proof (precision_must_be_integer_text_and_its_sign_is_not_checked lib
                (unary_line "fneg" "2" "ten")) as (A & _).
  pose proof (precision_must_be_integer_text_and_its_sign_is_not_checked lib
                (unary_line "fneg" "2" "50")) as (_ & _ & B & _).
  destruct (A eq_refl ValueError eq_refl) as (S & O & _).
  split; [exact S | split; [exact O | exact (B eq_refl 2 50 eq_refl eq_refl)]].
Defined.

(** Two runs of the interpreter that allocate at different addresses, and so
    differ on [workdps], answer alike everything [fneg 2 50] and
    [fsub 5 3 10] ask. *)
Lemma same_answers_sample :
  (output (Unary.run (lib_at 140234567890123) (unary_line "fneg" "2" "50"))
   = output (Unary.run (lib_at 140109876543210) (unary_line "fneg" "2" "50")) /\
   status (Unary.run (lib_at 140234567890123) (unary_line "fneg" "2" "50"))
   = status (Unary.run (lib_at 140109876543210) (unary_line "fneg" "2" "50"))) /\
  (output (Binary.run (lib_at 140234567890123) (binary_line "fsub" "5" "3" "10"))
   = output (Binary.run (lib_at 140109876543210)
               (binary_line "fsub" "5" "3" "10")) /\
   status (Binary.run (lib_at 140234567890123) (binary_line "fsub" "5" "3" "10"))
   = status (Binary.run (lib_at 140109876543210)
               (binary_line "fsub" "5" "3" "10"))).
Proof.
  split.
  - apply (proj1 (same_arguments_and_same_answers_give_same_output
                    (lib_at 140234567890123) (lib_at 140109876543210)
                    (unary_line "fneg" "2" "50"))).
    repeat split; try reflexivity; intros;
      match goal with
      | G : getattr _ _ = Some _ |- _ => vm_compute in G; injection G as <-
      end; reflexivity.
  - apply (proj2 (same_arguments_and_same_answers_give_same_output
                    (lib_at 140234567890123) (lib_at 140109876543210)
                    (binary_line "fsub" "5" "3" "10"))).
    repeat split; try reflexivity; intros;
      match goal with
      | G : getattr _ _ = Some _ |- _ => vm_compute in G; injection G as <-
      end; reflexivity.
Defined.

Lemma subtraction_sample_keeps_operand_order :
  Binary.run lib (binary_line "fsub" "5" "3" "10")
  = (Ret tt,
     mkState 10 ("2.0" ++ nl)
       [EvMpf 15 "5"; EvMpf 15 "3"; EvInt "10"; EvSetDps 10; EvGetattr "fsub";
        EvCall 10 fsub [5; 3]; EvStr 10 (Number 2)]) /\
  (getattr lib "fsub" = Some fsub /\
   exists x y,
     mpf lib 15 "5" = inr x /\ mpf lib 15 "3" = inr y /\ [5; 3] = [x; y]).
Proof.
  split; [reflexivity|].
  apply (proj2 (call_receives_the_operands_in_command_line_order lib
                  (binary_line "fsub" "5" "3" "10") 10 fsub [5; 3])).
  vm_compute. do 5 right. left. reflexivity.
Defined.

Lemma evaluation_precision_sample :
  exists n, py_int lib "50" = inr n /\ set_dps lib n 15 = inr 50.
Proof.
  apply (proj1 (proj2
           (evaluation_runs_under_the_precision_of_the_last_argument lib
              (unary_line "fneg" "2" "50"))) 50 fneg [2]).
  vm_compute. do 4 right. left. reflexivity.
Defined.


Lemma status_zero_sample :
  exists x y n c f out obj text,
    binary_inputs_accepted lib (binary_line "fmul" "6" "7" "20") x y n c /\
    getattr lib "fmul" = Some f /\
    call lib c f [x; y] = (out, inr obj) /\
    str lib c obj = inr text /\
    output (Binary.run lib (binary_line "fmul" "6" "7" "20"))
    = out ++ text ++ nl.
Proof.
  apply (proj2 (status_zero_means_the_named_function_was_applied_and_printed
                  lib (binary_line "fmul" "6" "7" "20"))).
  reflexivity.
Defined.

End Samples.
